(* Verification of src/main/java/com/catalog/secretsharing/script.py:
   the function lagrange_constant_term, which recovers the constant term
   of a polynomial from sample points by Lagrange interpolation at 0. *)

From HB Require Import structures.
From Stdlib Require Import ZArith Floats.
From mathcomp Require Import boot algebra.

Set Implicit Arguments.
Unset Strict Implicit.
Unset Printing Implicit Defensive.

Import GRing.Theory.

(* MathComp takes the delimiter Z for its own int; Python's ints are
   Stdlib's Z, written with %pyint. *)
Delimit Scope Z_scope with pyint.

(* ------------------------------------------------------------------ *)
(* Exceptions and the error monad                                      *)
(* ------------------------------------------------------------------ *)

(* The exceptions the statements of the function can raise in Python. *)
Inductive exn : Type :=
  | ZeroDivisionError   (* int / int or float / float with divisor 0 *)
  | OverflowError       (* int too large for a float, quotient too large *)
  | IndexError.         (* points[i] out of range *)

Inductive result (A : Type) : Type :=
  | Ok of A
  | Raise of exn.

Arguments Ok {A} _.
Arguments Raise {A} _.

Definition bind (A B : Type) (c : result A) (k : A -> result B) : result B :=
  match c with
  | Ok a => k a
  | Raise e => Raise e
  end.

Notation "x <- c ;; k" := (bind c (fun x => k))
  (at level 100, c at next level, right associativity).
Notation "' p <- c ;; k" := (bind c (fun p => k))
  (at level 100, p pattern, c at next level, right associativity).

(* range(n) *)
Definition range (n : nat) : seq nat := iota 0 n.

(* for i in r: s = body(i, s); an exception leaves the loop at once. *)
Fixpoint for_in (S : Type) (r : seq nat) (body : nat -> S -> result S)
    (s : S) : result S :=
  match r with
  | [::] => Ok s
  | i :: r' => s' <- body i s ;; for_in r' body s'
  end.

(* l[i] for a non-negative index. *)
Fixpoint getitem (T : Type) (l : seq T) (i : nat) : result T :=
  match l, i with
  | [::], _ => Raise IndexError
  | x :: _, 0 => Ok x
  | _ :: l', i'.+1 => getitem l' i'
  end.

(* The x-values of a sequence of points, in order. *)
Definition xs (T : Type) (points : seq (T * T)) : seq T :=
  [seq p.1 | p <- points].

(* ------------------------------------------------------------------ *)
(* The arithmetic the function is run with                             *)
(* ------------------------------------------------------------------ *)

(* The function is duck-typed.  The operators it applies, at the types
   they are applied at: the coordinates of the points (num) and the
   values that start from the literals 0.0 and 1.0 (flt). *)
Record arith : Type := Arith {
  num : eqType;
  flt : Type;
  int0 : num;                          (* 0   *)
  flt0 : flt;                          (* 0.0 *)
  flt1 : flt;                          (* 1.0 *)
  sub : num -> num -> num;             (* 0 - xj, xi - xj *)
  truediv : num -> num -> result flt;  (* (0 - xj) / (xi - xj) *)
  imul : flt -> flt -> flt;            (* li_0 *= ... *)
  mul : num -> flt -> result flt;      (* yi * li_0 *)
  iadd : flt -> flt -> flt             (* secret += ... *)
}.

(* ------------------------------------------------------------------ *)
(* lagrange_constant_term, script.py lines 12-29                       *)
(* ------------------------------------------------------------------ *)

Section Source.

Variable A : arith.

(* Lines 21-25: the inner loop, which leaves Li(0) in li_0. *)
Definition basis_body (points : seq (num A * num A)) (i : nat) (xi : num A)
    (j : nat) (li_0 : flt A) : result (flt A) :=
  if i != j then
    '(xj, _) <- getitem points j ;;
    q <- truediv (sub (int0 A) xj) (sub xi xj) ;;
    Ok (imul li_0 q)
  else Ok li_0.

(* Lines 17-27: one round of the outer loop. *)
Definition secret_body (points : seq (num A * num A)) (n : nat) (i : nat)
    (secret : flt A) : result (flt A) :=
  '(xi, yi) <- getitem points i ;;
  let li_0 := flt1 A in
  li_0 <- for_in (range n) (basis_body points i xi) li_0 ;;
  t <- mul yi li_0 ;;
  Ok (iadd secret t).

Definition lagrange_constant_term (points : seq (num A * num A))
    : result (flt A) :=
  let secret := flt0 A in
  let n := size points in
  for_in (range n) (secret_body points n) secret.

(* The spec's words in the same arithmetic, read in index order:
   Li(0) is the product over all j <> i of (0 - xj) / (xi - xj), built
   up from 1.0, and the secret the sum over i of yi * Li(0), built up
   from 0.0. *)
Definition accumulate (T U : Type) (step : U -> T -> result U) (u0 : U)
    (ts : seq T) : result U :=
  foldl (fun acc t => u <- acc ;; step u t) (Ok u0) ts.

Definition x_at (points : seq (num A * num A)) (i : nat) : num A :=
  (nth (int0 A, int0 A) points i).1.

Definition y_at (points : seq (num A * num A)) (i : nat) : num A :=
  (nth (int0 A, int0 A) points i).2.

Definition basis_in (points : seq (num A * num A)) (i : nat)
    : result (flt A) :=
  accumulate
    (fun li_0 j =>
       q <- truediv (sub (int0 A) (x_at points j))
                    (sub (x_at points i) (x_at points j)) ;;
       Ok (imul li_0 q))
    (flt1 A) [seq j <- range (size points) | j != i].

Definition interpolate_in (points : seq (num A * num A)) : result (flt A) :=
  accumulate
    (fun secret i =>
       li_0 <- basis_in points i ;;
       t <- mul (y_at points i) li_0 ;;
       Ok (iadd secret t))
    (flt0 A) (range (size points)).

End Source.

Arguments lagrange_constant_term A points : clear implicits.
Arguments secret_body A points n i secret : clear implicits.
Arguments basis_body A points i xi j li_0 : clear implicits.
Arguments interpolate_in A points : clear implicits.

(* What the proofs about exceptions need of an arithmetic: x - y is 0
   exactly when x = y, division by 0 raises ZeroDivisionError, and
   nothing else raises anything but OverflowError. *)
Record lawful (A : arith) : Prop := Lawful {
  law_sub : forall a b : num A, (sub a b == int0 A) = (a == b);
  law_div0 : forall a : num A, truediv a (int0 A) = Raise ZeroDivisionError;
  law_div : forall (a b : num A) e,
    b != int0 A -> truediv a b = Raise e -> e = OverflowError;
  law_mul : forall (y : num A) (f : flt A) e,
    mul y f = Raise e -> e = OverflowError
}.

(* Empty, or two points with the same x-value. *)
Definition degenerate (T : eqType) (points : seq (T * T)) : bool :=
  (points == [::]) || ~~ uniq (xs points).

(* ------------------------------------------------------------------ *)
(* Python's arithmetic on int points                                   *)
(* ------------------------------------------------------------------ *)

(* The points of the script are pairs of ints (line 5).  An int is a Z;
   a float is a binary64, the kernel's primitive float.  The operators
   are Python's: int - int is exact, int / int is true division, and
   int * float converts the int. *)

Definition Z_eqP : Equality.axiom Z.eqb :=
  fun a b => iffP idP (proj1 (Z.eqb_eq a b)) (proj2 (Z.eqb_eq a b)).

HB.instance Definition _ := hasDecEq.Build Z Z_eqP.

Module Python.

(* An int as an unrounded binary number, mantissa z and exponent 0. *)
Definition Z2SF (z : Z) : spec_float :=
  match z with
  | Z0 => S754_zero false
  | Zpos p => S754_finite false p 0
  | Zneg p => S754_finite true p 0
  end.

(* float(z): rounded to nearest even; too large raises OverflowError. *)
Definition float_of_int (z : Z) : result float :=
  match binary_normalize prec emax z 0 false with
  | S754_infinity _ => Raise OverflowError
  | f => Ok (SF2Prim f)
  end.

(* a / b on ints: the exact quotient rounded once to binary64;
   b = 0 raises ZeroDivisionError, a quotient beyond the largest float
   raises OverflowError. *)
Definition int_truediv (a b : Z) : result float :=
  if Z.eqb b 0 then Raise ZeroDivisionError
  else match SFdiv prec emax (Z2SF a) (Z2SF b) with
       | S754_infinity _ => Raise OverflowError
       | q => Ok (SF2Prim q)
       end.

(* y * f with y an int and f a float: y is converted first. *)
Definition int_mul_float (y : Z) (f : float) : result float :=
  y' <- float_of_int y ;; Ok (PrimFloat.mul y' f).

Definition py : arith :=
  @Arith Z float 0%pyint 0%float 1%float
         Z.sub int_truediv PrimFloat.mul int_mul_float PrimFloat.add.

(* abs(a - b) < tol, the comparison of script.py line 40. *)
Definition within (tol a b : float) : bool :=
  PrimFloat.ltb (PrimFloat.abs (PrimFloat.sub a b)) tol.

(* f == z for a float f and an int z: Python compares the two exact
   values. *)
Definition float_eq_int (f : float) (z : Z) : bool :=
  match Prim2SF f with
  | S754_zero _ => Z.eqb z 0
  | S754_finite s m e =>
      let v := if s then Zneg m else Zpos m in
      if Z.leb 0 e then Z.eqb (v * 2 ^ e) z else Z.eqb v (z * 2 ^ (- e))
  | _ => false
  end.


(* The data of the script, lines 5, 9 and 35. *)
Definition test1_points : seq (Z * Z) :=
  [:: (1, 4); (2, 7); (3, 12); (6, 39)]%pyint.
Definition test1_selected : seq (Z * Z) := take 3 test1_points.
Definition test1_alt : seq (Z * Z) :=
  [:: nth (0, 0)%pyint test1_points 0; nth (0, 0)%pyint test1_points 1;
      nth (0, 0)%pyint test1_points 3].

End Python.

(* ------------------------------------------------------------------ *)
(* The same function over a field: arithmetic that never rounds        *)
(* ------------------------------------------------------------------ *)

Module Exact.
Section Field.

Variable F : fieldType.

Open Scope ring_scope.

(* Division raises on a zero divisor, as Python's does, and is exact. *)
Definition truediv (a b : F) : result F :=
  if b == 0 then Raise ZeroDivisionError else Ok (a / b).

Definition field : arith :=
  @Arith F F 0 0 1 (fun a b => a - b) truediv
         (fun a b => a * b) (fun y l => Ok (y * l)) (fun a b => a + b).

End Field.
End Exact.

(* ------------------------------------------------------------------ *)
(* The reference: Lagrange interpolation at zero                       *)
(* ------------------------------------------------------------------ *)

Section Reference.

Variable F : fieldType.

Open Scope ring_scope.

Implicit Type pts : seq (F * F).







End Reference.

(* ------------------------------------------------------------------ *)
(* Point sets built from point sets                                    *)
(* ------------------------------------------------------------------ *)

Section Transforms.

Variable F : fieldType.

Open Scope ring_scope.




End Transforms.

(* Every x-value of int points negated. *)
Definition negate_x (pts : seq (Z * Z)) : seq (Z * Z) :=
  [seq (Z.opp p.1, p.2) | p <- pts].

(* What Python's arithmetic sees of the y-values: float(y). *)
Definition float_ys (pts : seq (Z * Z)) : seq (result float) :=
  [seq Python.float_of_int p.2 | p <- pts].

(* ------------------------------------------------------------------ *)
(* The call on a store: points is a reference to the caller's list     *)
(* ------------------------------------------------------------------ *)

Module Store.
Section Store.

Variable A : arith.

(* The list objects of the program, by address. *)
Definition heap : Type := nat -> seq (num A * num A).

(* A statement takes the heap and leaves a heap, with a value or an
   exception. *)
Definition M (T : Type) : Type := heap -> result T * heap.

Definition ret (T : Type) (x : T) : M T := fun h => (Ok x, h).

Definition lift (T : Type) (c : result T) : M T := fun h => (c, h).

Definition mbind (T U : Type) (c : M T) (k : T -> M U) : M U :=
  fun h => match c h with
           | (Ok x, h') => k x h'
           | (Raise e, h') => (Raise e, h')
           end.

(* len(points) and points[i] read the object behind the reference. *)
Definition len (ref : nat) : M nat := fun h => (Ok (size (h ref)), h).

Definition item (ref i : nat) : M (num A * num A) :=
  fun h => (getitem (h ref) i, h).

Fixpoint for_in (S : Type) (r : seq nat) (body : nat -> S -> M S) (s : S)
    : M S :=
  match r with
  | [::] => ret s
  | i :: r' => mbind (body i s) (for_in r' body)
  end.

Definition basis_body (points : nat) (i : nat) (xi : num A) (j : nat)
    (li_0 : flt A) : M (flt A) :=
  if i != j then
    mbind (item points j) (fun pj =>
    mbind (lift (truediv (sub (int0 A) pj.1) (sub xi pj.1))) (fun q =>
    ret (imul li_0 q)))
  else ret li_0.

Definition secret_body (points : nat) (n : nat) (i : nat) (secret : flt A)
    : M (flt A) :=
  mbind (item points i) (fun p_i =>
  let xi := p_i.1 in
  let yi := p_i.2 in
  let li_0 := flt1 A in
  mbind (for_in (range n) (basis_body points i xi) li_0) (fun li_0 =>
  mbind (lift (mul yi li_0)) (fun t =>
  ret (iadd secret t)))).

Definition lagrange_constant_term (points : nat) : M (flt A) :=
  let secret := flt0 A in
  mbind (len points) (fun n =>
  for_in (range n) (secret_body points n) secret).

End Store.
End Store.

(* ================================================================== *)
(* Loops                                                               *)
(* ================================================================== *)

Section Loops.

Variable S : Type.
Implicit Types (r : seq nat) (body : nat -> S -> result S) (s : S).

Lemma getitem_nth (T : Type) (x0 : T) (l : seq T) i :
  i < size l -> getitem l i = Ok (nth x0 l i).
Proof. by elim: l i => [|x l IH] [|i] //= /IH. Qed.

Lemma mem_range n i : (i \in range n) = (i < n).
Proof. by rewrite /range mem_iota add0n. Qed.



Lemma for_in_ext r body body' s :
  (forall i s', i \in r -> body i s' = body' i s') ->
  for_in r body s = for_in r body' s.
Proof.
elim: r s => [|i r IH] s Hb //=.
rewrite Hb ?mem_head //; case: (body' i s) => [s'|e] //=.
by apply: IH => j s'' jr; apply: Hb; rewrite in_cons jr orbT.
Qed.

(* Rounds that are skipped can be left out of the range. *)
Lemma for_in_skip (p : pred nat) r body s :
  for_in r (fun i s' => if p i then body i s' else Ok s') s
  = for_in [seq i <- r | p i] body s.
Proof.
elim: r s => [|i r IH] s //=.
by case: (p i) => //=; case: (body i s) => [s'|e] /=.
Qed.

Lemma accumulate_raise (T : Type) (step : S -> T -> result S) e ts :
  foldl (fun acc t => u <- acc ;; step u t) (Raise e) ts = Raise e.
Proof. by elim: ts. Qed.

Lemma for_in_accumulate r body s :
  for_in r body s = accumulate (fun s' i => body i s') s r.
Proof.
rewrite /accumulate; elim: r s => [|i r IH] s //=.
by case: (body i s) => [s'|e] /=; rewrite ?accumulate_raise.
Qed.

(* A loop raises only what one of its rounds raises. *)
Lemma for_in_raise (P : exn -> Prop) r body s e :
  (forall i s' e', i \in r -> body i s' = Raise e' -> P e') ->
  for_in r body s = Raise e -> P e.
Proof.
elim: r s => [|i r IH] s Hb //=.
case Ebi: (body i s) => [s'|e'] /=.
  by apply: IH => j s'' e'' jr; apply: Hb; rewrite in_cons jr orbT.
by case=> <-; apply: (Hb i s) => //; rewrite mem_head.
Qed.

(* A loop with a round that raises from every state does not return. *)
Lemma for_in_stuck r body s k :
  k \in r -> (forall s', exists e, body k s' = Raise e) ->
  exists e, for_in r body s = Raise e.
Proof.
elim: r s => [|i r IH] s //=.
rewrite in_cons => /orP [/eqP <-|kr] Hk.
  by case: (Hk s) => e ->; exists e.
by case: (body i s) => [s'|e] /=; [apply: IH | exists e].
Qed.

End Loops.

(* ================================================================== *)
(* The run over a field                                                *)
(* ================================================================== *)

Section ExactRun.

Variable F : fieldType.

Open Scope ring_scope.

Implicit Type pts : seq (F * F).

Local Notation E := (Exact.field F).







End ExactRun.

(* ================================================================== *)
(* The interpolation polynomial                                        *)
(* ================================================================== *)

Section Interpolation.

Variable F : fieldType.

Open Scope ring_scope.

Implicit Type pts : seq (F * F).








End Interpolation.

(* ================================================================== *)
(* The order of the points                                             *)
(* ================================================================== *)

Section Order.

Variable F : fieldType.

Open Scope ring_scope.

Implicit Type pts : seq (F * F).



End Order.

(* ================================================================== *)
(* Which exceptions a run can raise                                    *)
(* ================================================================== *)

Section Exceptions.

Variable A : arith.

Implicit Type pts : seq (num A * num A).

Local Notation nx := (@x_at A).
Local Notation ny := (@y_at A).

Lemma getitem_pair pts i :
  i < size pts -> getitem pts i = Ok (nx pts i, ny pts i).
Proof. by move=> lt_i; rewrite (getitem_nth (int0 A, int0 A)) // -surjective_pairing. Qed.

(* Whatever a run raises was raised by a division of the inner loop or
   by the product yi * li_0: points[i] never fails. *)
Lemma run_raise (P : exn -> Prop) pts e :
  (forall i j e', i < size pts -> j < size pts -> i != j ->
     truediv (sub (int0 A) (nx pts j)) (sub (nx pts i) (nx pts j)) = Raise e' ->
     P e') ->
  (forall (y : num A) (f : flt A) e', mul y f = Raise e' -> P e') ->
  lagrange_constant_term A pts = Raise e -> P e.
Proof.
move=> Pdiv Pmul; apply: for_in_raise => i s e'.
rewrite mem_range /secret_body => lt_i; rewrite getitem_pair //=.
case Eb: (for_in _ _ _) => [li|e''] /=.
  by case Em: (mul _ _) => [t|e''] //= [<-]; apply: Pmul Em.
case=> <-; apply: for_in_raise Eb => j li e3.
rewrite mem_range /basis_body => lt_j.
case: eqP => // /eqP ne_ij; rewrite getitem_pair //=.
by case Ed: (truediv _ _) => [q|e4] //= [<-]; apply: Pdiv Ed.
Qed.

(* The loops against the spec's words, in whatever arithmetic: the
   index test skips one factor, and points[j] is the j-th point. *)
Lemma run_basis_in pts i li :
  for_in (range (size pts)) (basis_body A pts i (nx pts i)) li
  = accumulate
      (fun li_0 j =>
         q <- truediv (sub (int0 A) (nx pts j)) (sub (nx pts i) (nx pts j)) ;;
         Ok (imul li_0 q))
      li [seq j <- range (size pts) | j != i].
Proof.
rewrite -for_in_accumulate -for_in_skip; apply: for_in_ext => j s.
rewrite mem_range /basis_body eq_sym => lt_j.
by case: (j != i) => //; rewrite getitem_pair.
Qed.

Lemma run_interpolate_in pts :
  lagrange_constant_term A pts = interpolate_in A pts.
Proof.
rewrite /lagrange_constant_term /interpolate_in -for_in_accumulate.
apply: for_in_ext => i s; rewrite mem_range /secret_body => lt_i.
by rewrite getitem_pair //= run_basis_in.
Qed.

Hypothesis lawA : lawful A.

Lemma nx_eqE pts i j :
  uniq (xs pts) -> i < size pts -> j < size pts ->
  (nx pts i == nx pts j) = (i == j).
Proof.
move=> U lt_i lt_j.
by rewrite /x_at -!(nth_map (int0 A, int0 A) (int0 A) fst) // nth_uniq // size_map.
Qed.

(* No index error, whatever the points. *)
Lemma run_raise_arith pts e :
  lagrange_constant_term A pts = Raise e ->
  e = ZeroDivisionError \/ e = OverflowError.
Proof.
apply: (@run_raise (fun e => e = ZeroDivisionError \/ e = OverflowError))
  => [i j e' _ _ _|y f e' /(law_mul lawA) ->]; last by right.
case: (altP (sub (nx pts i) (nx pts j) =P int0 A)) => [->|nz].
  by rewrite (law_div0 lawA) => -[<-]; left.
by move/(law_div lawA nz) => ->; right.
Qed.

(* Distinct x-values: no divisor is zero. *)
Lemma divisor_neq0 pts i j :
  uniq (xs pts) -> i < size pts -> j < size pts -> i != j ->
  sub (nx pts i) (nx pts j) != int0 A.
Proof. by move=> U lt_i lt_j ne_ij; rewrite (law_sub lawA) nx_eqE. Qed.

Lemma run_uniq_raise pts e :
  uniq (xs pts) -> lagrange_constant_term A pts = Raise e ->
  e = OverflowError.
Proof.
move=> U; apply: (@run_raise (fun e => e = OverflowError))
  => [i j e' lt_i lt_j ne_ij|y f e']; last first.
  exact: (law_mul lawA).
exact: (law_div lawA (divisor_neq0 U lt_i lt_j ne_ij)).
Qed.

(* Two equal x-values: the run does not return. *)
Lemma run_dup_stuck pts :
  ~~ uniq (xs pts) -> exists e, lagrange_constant_term A pts = Raise e.
Proof.
case/(uniqPn (int0 A)) => i [j] [lt_ij]; rewrite size_map => lt_j.
have lt_i : i < size pts := ltn_trans lt_ij lt_j.
rewrite !(nth_map (int0 A, int0 A)) // -/(nx pts i) -/(nx pts j) => eq_x.
rewrite /lagrange_constant_term.
apply: (@for_in_stuck _ _ _ _ i); first by rewrite mem_range.
move=> s; rewrite /secret_body getitem_pair //=.
have [e ->] : exists e,
    for_in (range (size pts)) (basis_body A pts i (nx pts i)) (flt1 A)
    = Raise e; last by exists e.
apply: (@for_in_stuck _ _ _ _ j); first by rewrite mem_range.
move=> li; rewrite /basis_body (ltn_eqF lt_ij) getitem_pair //=.
have -> : sub (nx pts i) (nx pts j) = int0 A.
  by apply/eqP; rewrite (law_sub lawA) eq_x.
by rewrite (law_div0 lawA); exists ZeroDivisionError.
Qed.

Lemma run_dup_raise pts :
  ~~ uniq (xs pts) ->
  lagrange_constant_term A pts = Raise ZeroDivisionError
  \/ lagrange_constant_term A pts = Raise OverflowError.
Proof.
move=> /run_dup_stuck [e Ee]; rewrite Ee.
by case: (run_raise_arith Ee) => ->; [left | right].
Qed.

End Exceptions.

(* ================================================================== *)
(* The two arithmetics are lawful                                      *)
(* ================================================================== *)

Lemma python_lawful : lawful Python.py.
Proof.
split=> /=.
- move=> a b; apply/eqP/eqP => [/Z.sub_move_0_r //|->].
  exact: Z.sub_diag.
- by move=> a; rewrite /Python.int_truediv.
- move=> a b e nz; rewrite /Python.int_truediv.
  have -> : Z.eqb b 0 = false by exact: negbTE nz.
  by case: (SFdiv _ _ _ _) => [s|s| |s m x] //= [<-].
- move=> y f e; rewrite /Python.int_mul_float /Python.float_of_int.
  by case: (binary_normalize _ _ _ _ _) => [s|s| |s m x] //= [<-].
Qed.

Lemma exact_lawful (F : fieldType) : lawful (Exact.field F).
Proof.
split=> /=.
- by move=> a b; rewrite subr_eq0.
- by move=> a; rewrite /Exact.truediv eqxx.
- by move=> a b e /negbTE nz; rewrite /Exact.truediv nz.
- by [].
Qed.

(* Over a field nothing overflows: equal x-values raise
   ZeroDivisionError. *)
Lemma exact_dup (F : fieldType) (pts : seq (F * F)) :
  ~~ uniq (xs pts) ->
  lagrange_constant_term (Exact.field F) pts = Raise ZeroDivisionError.
Proof.
move=> /(run_dup_stuck (exact_lawful F)) [e Ee]; rewrite Ee; congr Raise.
apply: (@run_raise (Exact.field F) (fun e => e = ZeroDivisionError)) Ee => //=.
by move=> i j e' _ _ _; rewrite /Exact.truediv; case: ifP => // _ [<-].
Qed.

(* ================================================================== *)
(* The call on a store                                                 *)
(* ================================================================== *)

Section StoreRun.

Variable A : arith.

Implicit Type h : Store.heap A.

Lemma store_for_in (S : Type) r (bodyS : nat -> S -> Store.M A S)
    (body : nat -> S -> result S) s h :
  (forall i s', bodyS i s' h = (body i s', h)) ->
  Store.for_in r bodyS s h = (for_in r body s, h).
Proof.
move=> Hb; elim: r s => [|i r IH] s //=.
by rewrite /Store.mbind Hb; case: (body i s) => [s'|e] //=.
Qed.

(* The call reads the list behind the reference and nothing else, and
   leaves the heap as it found it. *)
Lemma store_run points h :
  Store.lagrange_constant_term points h
  = (lagrange_constant_term A (h points), h).
Proof.
rewrite /Store.lagrange_constant_term /Store.mbind /Store.len.
apply: store_for_in => i s.
rewrite /Store.secret_body /secret_body /Store.mbind /Store.item.
case: (getitem _ _) => [[xi yi]|e] //=.
have inner j li : Store.basis_body points i xi j li h
                  = (basis_body A (h points) i xi j li, h).
  rewrite /Store.basis_body /basis_body.
  case: (i != j) => //; rewrite /Store.mbind /Store.item.
  case: (getitem _ _) => [[xj yj]|e] //=.
  by rewrite /Store.lift; case: (truediv _ _).
rewrite (store_for_in _ _ inner).
case: (for_in _ _ _) => [li|e] //=.
by rewrite /Store.lift; case: (mul _ _).
Qed.

End StoreRun.

(* ================================================================== *)
(* The properties of lagrange_constant_term                            *)
(* ================================================================== *)

Section Claims.

Import Python.

Open Scope ring_scope.



(** C2, as the code has it: there is no validation and no
    InvalidInputError.  On int points, the empty sequence returns 0.0;
    two points with the same x-value make the call raise, Python's own
    ZeroDivisionError or, when something overflowed before the zero
    divisor was reached, OverflowError; with pairwise-distinct x-values
    the only exception possible is OverflowError. *)
Theorem degenerate_input_behaviour (pts : seq (Z * Z)) :
  (pts = [::] -> lagrange_constant_term py pts = Ok 0%float)
  /\ (~~ uniq (xs pts) ->
        lagrange_constant_term py pts = Raise ZeroDivisionError
        \/ lagrange_constant_term py pts = Raise OverflowError)
  /\ (uniq (xs pts) ->
        forall e, lagrange_constant_term py pts = Raise e ->
        e = OverflowError).
Proof.
split; first by move=> ->.
split; first exact: (run_dup_raise python_lawful).
by move=> U e; exact: (run_uniq_raise python_lawful U).
Qed.

Lemma degenerate_input_behaviour_witness :
  lagrange_constant_term py [:: (1, 4); (1, 7)]%pyint
    = Raise ZeroDivisionError
  \/ lagrange_constant_term py [:: (1, 4); (1, 7)]%pyint
    = Raise OverflowError.
Proof.
by apply: (proj1 (proj2 (degenerate_input_behaviour _))).
Defined.

(* The claim fails at the empty sequence: it is degenerate and the call
   returns 0.0. *)
Lemma empty_input_is_not_rejected :
  degenerate ([::] : seq (Z * Z))
  /\ lagrange_constant_term py [::] = Ok 0%float
  /\ ~ (exists e, lagrange_constant_term py [::] = Raise e).
Proof. by split=> //; split=> // -[e]. Qed.







(** C5: for the points [(1, 4), (2, 7), (3, 12)], the selection of the
    script, lagrange_constant_term returns 3.0, which is within 1e-9
    of 3. *)
Theorem test1_selected_secret :
  test1_selected = [:: (1, 4); (2, 7); (3, 12)]%pyint
  /\ exists r, [/\ lagrange_constant_term py test1_selected = Ok r,
                   within 1e-9 r 3 = true & r = 3%float].
Proof. by split=> //; exists 3%float; split; vm_compute. Qed.

(** C6: for the points [(1, 4), (2, 7), (6, 39)], the alternative
    selection of the script, lagrange_constant_term returns 3 within
    1e-9 as well, it agrees with the first selection within the 1e-10
    of the script, and so does every other choice of three of the four
    points. *)
Theorem test1_alt_secret :
  test1_alt = [:: (1, 4); (2, 7); (6, 39)]%pyint
  /\ (exists r r1,
       [/\ lagrange_constant_term py test1_alt = Ok r,
           within 1e-9 r 3 = true,
           lagrange_constant_term py test1_selected = Ok r1
         & within 1e-10 r1 r = true])
  /\ all (fun pts => if lagrange_constant_term py pts is Ok r
                     then within 1e-9 r 3 else false)
         [:: [:: (1, 4); (2, 7); (3, 12)]; [:: (1, 4); (2, 7); (6, 39)];
             [:: (1, 4); (3, 12); (6, 39)]; [:: (2, 7); (3, 12); (6, 39)]
         ]%pyint.
Proof.
split; first by [].
by split; [exists 3%float, 3%float; split; vm_compute | vm_compute].
Qed.

(** C7, as the code has it: [(5, 42)] returns 42.0, which equals 42.
    A one-element sequence [(x, y)] of ints returns 0.0 + float(y) * 1.0
    whatever x is, and raises OverflowError when float(y) does; over a
    field it returns y. *)
Theorem single_point :
  (lagrange_constant_term py [:: (5, 42)]%pyint = Ok 42%float
   /\ float_eq_int 42 42 = true)
  /\ (forall x y : Z,
        lagrange_constant_term py [:: (x, y)]
        = (f <- float_of_int y ;;
           Ok (PrimFloat.add 0 (PrimFloat.mul f 1))))
  /\ (forall (F : fieldType) (x y : F),
        lagrange_constant_term (Exact.field F) [:: (x, y)] = Ok y).
Proof.
split; first by split; vm_compute.
split=> [x y|F x y].
  rewrite /lagrange_constant_term /= /secret_body /= /int_mul_float.
  by case: (float_of_int y).
by rewrite /lagrange_constant_term /= /secret_body /= mulr1 add0r.
Qed.

(* An int y that binary64 cannot represent is not returned: 2^53 + 1
   comes back as 2^53, and 10^400 raises OverflowError. *)
Lemma single_point_is_rounded :
  lagrange_constant_term py [:: (1, 2 ^ 53 + 1)]%pyint
    = Ok 9007199254740992%float
  /\ float_eq_int 9007199254740992 (2 ^ 53 + 1)%pyint = false
  /\ lagrange_constant_term py [:: (1, 10 ^ 400)]%pyint
    = Raise OverflowError.
Proof. by split; [|split]; vm_compute. Qed.

(** C8: the call is a function of the list behind its argument and has
    no effect: two calls on equal point sequences, in any two heaps,
    give equal results (value or exception), and each leaves its heap
    as it was. *)
Theorem call_is_pure (A : arith) (h1 h2 : Store.heap A) (p1 p2 : nat) :
  h1 p1 = h2 p2 ->
  [/\ (Store.lagrange_constant_term p1 h1).1
       = (Store.lagrange_constant_term p2 h2).1,
      (Store.lagrange_constant_term p1 h1).1
       = lagrange_constant_term A (h1 p1),
      (Store.lagrange_constant_term p1 h1).2 = h1
    & (Store.lagrange_constant_term p2 h2).2 = h2].
Proof. by move=> eq_pts; rewrite !store_run /= eq_pts. Qed.

Lemma call_is_pure_witness :
  let h1 : Store.heap py := fun _ => test1_selected in
  let h2 : Store.heap py := fun a => if a == 7%N then test1_selected
                                     else test1_points in
  (Store.lagrange_constant_term 0%N h1).1
  = (Store.lagrange_constant_term 7%N h2).1.
Proof.
move=> h1 h2.
by case: (@call_is_pure py h1 h2 0%N 7%N); first by vm_compute.
Defined.

(** C9, as the code has it: the division is unguarded.  On int points
    with pairwise-distinct x-values no divisor xi - xj is zero and the
    call never raises ZeroDivisionError.  With two equal x-values the
    call never returns: it raises ZeroDivisionError at that division,
    unless an earlier operation has already raised OverflowError; over
    a field, where nothing overflows, it always raises
    ZeroDivisionError. *)
Theorem unguarded_division (pts : seq (Z * Z)) :
  (uniq (xs pts) ->
     (forall i j : nat, (i < size pts)%N -> (j < size pts)%N -> i != j ->
        ((nth (0, 0) pts i).1 - (nth (0, 0) pts j).1)%pyint != 0%pyint)
     /\ lagrange_constant_term py pts <> Raise ZeroDivisionError)
  /\ (~~ uniq (xs pts) ->
        lagrange_constant_term py pts = Raise ZeroDivisionError
        \/ lagrange_constant_term py pts = Raise OverflowError)
  /\ (forall (F : fieldType) (qts : seq (F * F)), ~~ uniq (xs qts) ->
        lagrange_constant_term (Exact.field F) qts
        = Raise ZeroDivisionError).
Proof.
split=> [U|].
  split=> [i j lt_i lt_j ne_ij|].
    exact: (divisor_neq0 python_lawful U lt_i lt_j ne_ij).
  by move/(run_uniq_raise python_lawful U).
split; first exact: (run_dup_raise python_lawful).
by move=> F qts; apply: exact_dup.
Qed.

Lemma unguarded_division_witness :
  lagrange_constant_term py [:: (1, 4); (2, 7); (3, 12)]%pyint
  <> Raise ZeroDivisionError.
Proof.
by apply: (proj2 (proj1 (unguarded_division _) _)).
Defined.

(* Two equal x-values and no division by zero: the first division
   already overflows. *)
Lemma duplicate_x_overflows_first :
  let pts := [:: (2 ^ 1024 - 1, 0); (2 ^ 1024, 0); (2 ^ 1024, 0)]%pyint in
  ~~ uniq (xs pts)
  /\ lagrange_constant_term py pts = Raise OverflowError
  /\ lagrange_constant_term py pts <> Raise ZeroDivisionError.
Proof. by split; [|split]; vm_compute. Qed.

(** C10: called with an empty sequence of points,
    lagrange_constant_term does not fail: both loops run zero times and
    it returns 0.0. *)
Theorem empty_input_returns_zero :
  lagrange_constant_term py [::] = Ok 0%float
  /\ range (size ([::] : seq (Z * Z))) = [::].
Proof. by []. Qed.

End Claims.

(* ================================================================== *)
(* Further properties: the weights                                     *)
(* ================================================================== *)

Section Weights.

Variable F : fieldType.

Open Scope ring_scope.

Implicit Type pts : seq (F * F).









End Weights.

(* ================================================================== *)
(* Further properties: what Python's arithmetic sees of the points     *)
(* ================================================================== *)

Section PythonViews.

Import Python.

Lemma x_at_xs (A : arith) (pts : seq (num A * num A)) i :
  x_at pts i = nth (int0 A) (xs pts) i.
Proof.
case: (ltnP i (size pts)) => [lt_i|ge_i].
  by rewrite /xs (nth_map (int0 A, int0 A)).
by rewrite /x_at !nth_default // size_map.
Qed.

Lemma accumulate_ext_in (T : eqType) (U : Type)
    (step step' : U -> T -> result U) u0 (ts : seq T) :
  (forall u t, t \in ts -> step u t = step' u t) ->
  accumulate step u0 ts = accumulate step' u0 ts.
Proof.
rewrite /accumulate; elim: ts (Ok u0) => [|t ts IH] acc Hs //=.
have -> : (u <- acc ;; step u t) = (u <- acc ;; step' u t).
  by case: acc => //= u; rewrite Hs ?mem_head.
by apply: IH => u t' t'_in; apply: Hs; rewrite in_cons t'_in orbT.
Qed.

Lemma same_xs_size (T : Type) (pts pts' : seq (T * T)) :
  xs pts = xs pts' -> size pts = size pts'.
Proof. by move/(congr1 size); rewrite !size_map. Qed.

Lemma same_xs_basis (pts pts' : seq (Z * Z)) i :
  xs pts = xs pts' -> basis_in (A:=py) pts i = basis_in (A:=py) pts' i.
Proof.
move=> eq_x; rewrite /basis_in (same_xs_size eq_x).
by apply: accumulate_ext_in => li j _; rewrite !x_at_xs eq_x.
Qed.

Lemma run_same_floats (pts pts' : seq (Z * Z)) :
  xs pts = xs pts' -> float_ys pts = float_ys pts' ->
  lagrange_constant_term py pts = lagrange_constant_term py pts'.
Proof.
move=> eq_x eq_y; rewrite !run_interpolate_in /interpolate_in.
rewrite (same_xs_size eq_x); apply: accumulate_ext_in => s i.
rewrite mem_range => lt_i; rewrite (same_xs_basis i eq_x).
case: (basis_in _ _) => //= li; rewrite /int_mul_float.
have -> // : float_of_int (y_at (A:=py) pts i)
             = float_of_int (y_at (A:=py) pts' i).
have := congr1 (fun s => nth (Raise IndexError) s i) eq_y.
by rewrite /float_ys !(nth_map (0%pyint, 0%pyint)) // (same_xs_size eq_x).
Qed.

(* -a / -b is a / b, bit for bit, when a is not 0. *)
Lemma int_truediv_opp (a b : Z) :
  a != 0%pyint -> int_truediv (Z.opp a) (Z.opp b) = int_truediv a b.
Proof. by case: a b => [|p|p] [|q|q]. Qed.

Lemma size_negate_x pts : size (negate_x pts) = size pts.
Proof. by rewrite /negate_x size_map. Qed.

Lemma x_at_negate_x pts i :
  x_at (A:=py) (negate_x pts) i = Z.opp (x_at (A:=py) pts i).
Proof.
case: (ltnP i (size pts)) => [lt_i|ge_i].
  by rewrite /x_at /negate_x (nth_map (0%pyint, 0%pyint)).
by rewrite /x_at !nth_default // size_negate_x.
Qed.

Lemma y_at_negate_x pts i :
  y_at (A:=py) (negate_x pts) i = y_at (A:=py) pts i.
Proof.
case: (ltnP i (size pts)) => [lt_i|ge_i].
  by rewrite /y_at /negate_x (nth_map (0%pyint, 0%pyint)).
by rewrite /y_at !nth_default // size_negate_x.
Qed.

Lemma run_negate_x (pts : seq (Z * Z)) :
  all (fun x => x != 0%pyint) (xs pts) ->
  lagrange_constant_term py (negate_x pts) = lagrange_constant_term py pts.
Proof.
move=> /allP nz; rewrite !run_interpolate_in /interpolate_in size_negate_x.
apply: accumulate_ext_in => s i _; rewrite y_at_negate_x.
have -> // : basis_in (A:=py) (negate_x pts) i = basis_in (A:=py) pts i.
rewrite /basis_in size_negate_x; apply: accumulate_ext_in => li j.
rewrite mem_filter mem_range => /andP [_ lt_j]; rewrite !x_at_negate_x /=.
have -> : (- x_at (A:=py) pts i - - x_at (A:=py) pts j
           = - (x_at (A:=py) pts i - x_at (A:=py) pts j))%pyint.
  by rewrite Z.sub_opp_r Z.opp_sub_distr.
rewrite int_truediv_opp //.
have /nz : x_at (A:=py) pts j \in xs pts.
  by rewrite x_at_xs mem_nth // size_map.
by case: (x_at _ _).
Qed.

End PythonViews.

(* ================================================================== *)
(* Further properties of lagrange_constant_term                        *)
(* ================================================================== *)

Section Further.

Import Python.

Open Scope ring_scope.











(** X6: in Python's arithmetic an int y-value enters the computation
    only as float(y): two sequences of int points with the same
    x-values whose y-values convert to the same floats give the same
    result, so y-values that differ below the precision of binary64
    cannot be told apart. *)
Theorem only_float_of_y_matters (pts pts' : seq (Z * Z)) :
  xs pts = xs pts' -> float_ys pts = float_ys pts' ->
  lagrange_constant_term py pts = lagrange_constant_term py pts'.
Proof. exact: run_same_floats. Qed.

Lemma only_float_of_y_matters_witness :
  lagrange_constant_term py [:: (1, 2 ^ 53); (2, 7)]%pyint
  = lagrange_constant_term py [:: (1, 2 ^ 53 + 1); (2, 7)]%pyint.
Proof. by apply: only_float_of_y_matters; vm_compute. Defined.

(** X7: in Python's arithmetic, for int points none of which has
    x = 0, negating every x-value changes nothing: the call returns the
    same float, bit for bit, or raises the same exception. *)
Theorem result_ignores_x_sign (pts : seq (Z * Z)) :
  all (fun x => x != 0%pyint) (xs pts) ->
  lagrange_constant_term py (negate_x pts) = lagrange_constant_term py pts.
Proof. exact: run_negate_x. Qed.

Lemma result_ignores_x_sign_witness :
  lagrange_constant_term py (negate_x [:: (1, 4); (2, 7); (6, 39)]%pyint)
  = lagrange_constant_term py [:: (1, 4); (2, 7); (6, 39)]%pyint.
Proof. by apply: result_ignores_x_sign. Defined.



End Further.
